(** * Sidekick: the launch and preview deployment pipelines

    A shallow embedding of [cmd/launch.go] and [cmd/preview/preview.go].
    Both commands are one long [Run] function that threads the local file
    system, the remote host and the user through a fixed sequence of steps;
    the embedding is a state-and-abort monad over a [State] record, with the
    answers of the outside world (prompts, sub-processes, the SSH session,
    the clock) collected in an [Env] record. *)

From Stdlib Require Import ZArith String Ascii List DecimalString.
From stdpp Require Import base tactics option gmap strings list.

Local Open Scope string_scope.
Local Open Scope Z_scope.

(** ** Go strings

    A Go [string] is a sequence of bytes, and so is a Rocq [string]. *)

Module GoStrings.

Definition newline : ascii := "010"%char.
Definition nl : string := String newline "".

(** [len(s)] as a Go [int]. *)
Definition len (s : string) : Z := Z.of_nat (String.length s).

(** [strings.HasPrefix(s, prefix)]. *)
Definition HasPrefix (s prefix : string) : bool := String.prefix prefix s.

(** [strings.Contains(s, substr)]. *)
Fixpoint Contains (s substr : string) : bool :=
  HasPrefix s substr ||
  match s with
  | EmptyString => false
  | String _ t => Contains t substr
  end.

(** [strings.Split(s, sep)] for a one-byte separator, the only use the
    commands make of it: the pieces between separators, [[""]] for the
    empty string. *)
Fixpoint Split (s : string) (sep : ascii) : list string :=
  match s with
  | EmptyString => [EmptyString]
  | String c t =>
      if Ascii.eqb c sep then EmptyString :: Split t sep
      else match Split t sep with
           | piece :: rest => String c piece :: rest
           | [] => [String c EmptyString]
           end
  end.

Fixpoint drop (n : nat) (s : string) : string :=
  match n, s with
  | O, _ => s
  | S n', String _ t => drop n' t
  | S _, EmptyString => EmptyString
  end.

Fixpoint take (n : nat) (s : string) : string :=
  match n, s with
  | S n', String c t => String c (take n' t)
  | _, _ => EmptyString
  end.

(** The slice expression [s[i:]]; Go panics when [i] is out of range,
    which is [None] here. *)
Definition slice_from (s : string) (i : Z) : option string :=
  if (i <? 0) || (len s <? i) then None
  else Some (drop (Z.to_nat i) s).

(** [strings.HasSuffix] and [strings.TrimSuffix]. *)
Definition HasSuffix (s suffix : string) : bool :=
  (len suffix <=? len s) &&
  String.eqb (drop (String.length s - String.length suffix) s) suffix.

Definition TrimSuffix (s suffix : string) : string :=
  if HasSuffix s suffix
  then take (String.length s - String.length suffix) s
  else s.

(** [fmt.Sprint] of an unsigned integer. *)
Definition Sprint (n : N) : string := NilZero.string_of_uint (N.to_uint n).

End GoStrings.

(** ** The descriptor and record types *)

Record DockerService := {
  Image : string;
  Labels : list string;
  Environment : list string;
  Networks : list string;
}.

Record DockerNetwork := { External : bool }.

Record DockerComposeFile := {
  Services : gmap string DockerService;
  ComposeNetworks : gmap string DockerNetwork;
}.

Record SidekickPreview := {
  PreviewUrl : string;
  PreviewImage : string;
  PreviewCreatedAt : string;
}.

(** The persisted deployment record, [sidekick.yml]. The launch command
    fills in [AppImage], [Url], [CreatedAt] and [LastDeployedAt] only and
    leaves the other fields at their zero values. *)
Record SidekickAppConfig := {
  Name : string;
  AppImage : string;
  Port : N;
  Url : string;
  CreatedAt : string;
  LastDeployedAt : string;
  EnvFile : string;
  PreviewEnvs : gmap string SidekickPreview;
}.

(** What a local file holds. [yaml.Marshal] is a library call; a file
    written from its result is represented by the value that was
    marshalled, and [nil] (a failed marshal whose error is dropped) by the
    empty text. *)
Inductive FileData :=
| Text (bytes : string)
| ComposeYaml (doc : DockerComposeFile)
| RecordYaml (cfg : SidekickAppConfig).

Record File := { data : FileData; mode : Z }.

(** ** The outside world *)

(** The shell scripts piped into [sh -s -]; their text is not part of the
    two command files. [GitShortHash] is the inline
    [git rev-parse --short HEAD]. *)
Inductive Script :=
| SshKeysScript
| DockerHandleScript
| CheckGitTreeScript
| GitShortHash
| DockerBuildAndSaveScript
| ImageMoveScript.

(** The purpose of a remote command, recorded next to its text. *)
Inductive RemoteOp := OpMkdir | OpLoadImage | OpRemoveArchive | OpActivate.

Inductive Event :=
| EvScript (s : Script) (args : list string) (ok : bool)
| EvPrompt (label default result : string)
| EvLogin (addr : string) (ok : bool)
| EvSecret (file : string) (ok : bool)
| EvWriteFile (path : string) (d : FileData) (perm : Z) (ok : bool)
| EvRemove (path : string)
| EvRemote (op : RemoteOp) (cmd : string) (ok : bool)
| EvRsync (src dst : string).

(** Answers of everything the commands call but do not define. *)
Record Env := {
  configOk : bool;                       (* viper.ReadInConfig / utils.ViperInit *)
  serverAddress : string;                (* viper.Get("serverAddress") *)
  dockerUsername : string;               (* viper.Get("dockerUsername") *)
  dockerfile : option string;            (* os.ReadFile("./Dockerfile") *)
  cwd : string;                          (* os.Getwd() *)
  answer : string -> option string;      (* what the user types at a prompt;
                                            None: the offered default is accepted *)
  scriptOk : Script -> list string -> bool;
  scriptOut : Script -> string;
  loginOk : bool;
  remoteOk : string -> bool;             (* transport and command failures
                                            other than mkdir's own *)
  marshalOk : bool;                      (* yaml.Marshal of the compose document *)
  recordMarshalOk : bool;                (* yaml.Marshal of the record *)
  writeOk : string -> bool;              (* os.WriteFile succeeds on this path *)
  envOk : bool;                          (* utils.HandleEnvFile *)
  envProperty : list string;
  encryptedEnv : string;
  now : string;                          (* time.Now().Format(time.UnixDate) *)
}.

Record State := {
  fs : gmap string File;        (* the local working directory *)
  umask : Z;                    (* the process's file mode creation mask *)
  remoteDirs : gset string;     (* directories below the remote home *)
  trace : list Event;           (* effects so far, oldest first *)
  deferred : list string;       (* pending [defer os.Remove(p)], newest first *)
}.

(** ** The monad: state, plus the three ways a Go function stops early *)

Inductive Abort :=
| Exit (code : Z)     (* os.Exit(code), log.Fatal: no deferred call runs *)
| Panic               (* panic(err): deferred calls run, then status 2 *)
| Return.             (* a bare return: deferred calls run *)

Definition M (A : Type) : Type := State -> (A + Abort) * State.

Definition ret {A} (a : A) : M A := fun s => (inl a, s).

Definition bind {A B} (m : M A) (k : A -> M B) : M B :=
  fun s => match m s with
           | (inl a, s') => k a s'
           | (inr e, s') => (inr e, s')
           end.

Definition abort {A} (e : Abort) : M A := fun s => (inr e, s).

Declare Scope go_scope.
Delimit Scope go_scope with go.
Notation "x <- m ;; k" := (bind m (fun x => k))
  (at level 100, m at next level, right associativity) : go_scope.
Notation "m ;;; k" := (bind m (fun _ => k))
  (at level 100, right associativity) : go_scope.
Local Open Scope go_scope.

Definition modify (f : State -> State) : M unit := fun s => (inl tt, f s).

Definition log (ev : Event) (s : State) : State :=
  {| fs := fs s; umask := umask s; remoteDirs := remoteDirs s;
     trace := trace s ++ [ev]; deferred := deferred s |}.

Definition set_fs (f : gmap string File) (s : State) : State :=
  {| fs := f; umask := umask s; remoteDirs := remoteDirs s;
     trace := trace s; deferred := deferred s |}.

Definition set_remoteDirs (d : gset string) (s : State) : State :=
  {| fs := fs s; umask := umask s; remoteDirs := d;
     trace := trace s; deferred := deferred s |}.

Definition set_deferred (d : list string) (s : State) : State :=
  {| fs := fs s; umask := umask s; remoteDirs := remoteDirs s;
     trace := trace s; deferred := d |}.

(** [if cond { panic / os.Exit / return }]. *)
Definition when_ (cond : bool) (e : Abort) : M unit :=
  if cond then abort e else ret tt.

(** ** Local file system: [os.WriteFile], [os.Remove], [defer] *)

Module os.
Import GoStrings.

(** ["./sidekick.yml"] and ["sidekick.yml"] name the same file. *)
Definition clean (p : string) : string :=
  if HasPrefix p "./" then drop 2 p else p.

(** [os.WriteFile(name, data, perm)]: truncates an existing file and keeps
    its mode; creates a missing one with [perm] less the umask. The result
    is [err == nil]. *)
Definition WriteFile (e : Env) (name : string) (d : FileData) (perm : Z)
  : M bool :=
  fun s =>
    let p := clean name in
    if writeOk e p then
      let m := match fs s !! p with
               | Some f => mode f
               | None => Z.land perm (Z.lnot (umask s))
               end in
      (inl true,
       log (EvWriteFile p d perm true)
           (set_fs (<[p := {| data := d; mode := m |}]> (fs s)) s))
    else (inl false, log (EvWriteFile p d perm false) s).

(** [os.Remove(name)]; its error is never looked at. *)
Definition Remove (name : string) (s : State) : State :=
  log (EvRemove (clean name)) (set_fs (delete (clean name) (fs s)) s).

(** [defer os.Remove(name)]. *)
Definition deferRemove (name : string) : M unit :=
  modify (fun s => set_deferred (name :: deferred s) s).

Fixpoint removeAll (names : list string) (s : State) : State :=
  match names with
  | [] => s
  | n :: rest => removeAll rest (Remove n s)
  end.

(** The deferred calls of the returning function, last registered first. *)
Definition runDeferred (s : State) : State :=
  removeAll (deferred s) (set_deferred [] s).

End os.

(** How a command's [Run] function ends. *)
Inductive Outcome :=
| Completed                (* fell off the end of [Run] *)
| ReturnedEarly            (* a bare [return] *)
| Exited (code : Z)        (* os.Exit / log.Fatal *)
| Panicked.                (* an unrecovered panic *)

Definition exitStatus (o : Outcome) : Z :=
  match o with
  | Completed | ReturnedEarly => 0
  | Exited c => c
  | Panicked => 2
  end.

(** Running a [Run] function to the end of the process: deferred calls run
    on return and on panic, not on [os.Exit]. *)
Definition finish (r : unit + Abort) (s : State) : Outcome * State :=
  match r with
  | inl _ => (Completed, os.runDeferred s)
  | inr Return => (ReturnedEarly, os.runDeferred s)
  | inr Panic => (Panicked, os.runDeferred s)
  | inr (Exit c) => (Exited c, s)
  end.

(** A process starts with nothing done and nothing deferred. *)
Definition boot (s : State) : State :=
  {| fs := fs s; umask := umask s; remoteDirs := remoteDirs s;
     trace := []; deferred := [] |}.

Definition runFunc (body : M unit) (s : State) : Outcome * State :=
  let '(r, s') := body (boot s) in finish r s'.

(** ** The collaborators: prompts, sub-processes, the remote session *)

Module utils.
Import GoStrings.

(** [InteractiveTextInput.WithDefaultValue(d).Show()]. *)
Definition answered (e : Env) (label default : string) : string :=
  match answer e label with Some r => r | None => default end.

Definition Show (e : Env) (label default : string) : M string :=
  fun s => (inl (answered e label default),
            log (EvPrompt label default (answered e label default)) s).

(** [exec.Command("sh", "-s", "-", args...)] with the script on stdin,
    then [Run()]; the result is [err == nil]. *)
Definition runScript (e : Env) (sc : Script) (args : list string) : M bool :=
  fun s => (inl (scriptOk e sc args), log (EvScript sc args (scriptOk e sc args)) s).

(** [utils.Login] / [utils.LoginStage]. *)
Definition Login (e : Env) (addr : string) : M bool :=
  fun s => (inl (loginOk e), log (EvLogin addr (loginOk e)) s).

(** [exec.Command("rsync", src, dst).Run()], error dropped. *)
Definition rsync (src dst : string) : M unit :=
  modify (log (EvRsync src dst)).

Fixpoint join (sep : string) (l : list string) : string :=
  match l with
  | [] => ""
  | [x] => x
  | x :: rest => x +:+ sep +:+ join sep rest
  end.

(** [a/b/c] gives [a], [a/b], [a/b/c]. *)
Definition ancestors (path : string) : list string :=
  let comps := Split path "/"%char in
  map (fun k => join "/" (firstn k comps)) (seq 1 (List.length comps)).

Definition parentOk (dirs : gset string) (path : string) : bool :=
  match rev (ancestors path) with
  | _ :: parent :: _ => bool_decide (parent ∈ dirs)
  | _ => true
  end.

(** The remote shell on the two commands whose result depends on the
    remote directory tree: [mkdir d] fails on an existing [d] (and on a
    missing parent), [mkdir -p d] creates what is missing and accepts what
    exists. Every other command changes nothing that is modelled. *)
Definition remoteShell (cmd : string) (dirs : gset string)
  : bool * gset string :=
  if HasPrefix cmd "mkdir -p " then
    (true, list_to_set (ancestors (drop 9 cmd)) ∪ dirs)
  else if HasPrefix cmd "mkdir " then
    let d := drop 6 cmd in
    if bool_decide (d ∈ dirs) || negb (parentOk dirs d)
    then (false, dirs)
    else (true, {[d]} ∪ dirs)
  else (true, dirs).

(** [utils.RunCommand(sshClient, cmd)]; the result is [err == nil]. *)
Definition RunCommand (e : Env) (op : RemoteOp) (cmd : string) : M bool :=
  fun s =>
    if remoteOk e cmd then
      let '(ok, dirs) := remoteShell cmd (remoteDirs s) in
      (inl ok, log (EvRemote op cmd ok) (set_remoteDirs dirs s))
    else (inl false, log (EvRemote op cmd false) s).

(** Modelled from the spec: [utils.HandleEnvFile], the Secret Preparer.
    It reads the configured environment file, encrypts it to the
    transient artifact [encrypted.env] and hands back the environment
    assignments; the result is [err == nil]. *)
Definition HandleEnvFile (e : Env) (file : string) : M bool :=
  fun s =>
    if envOk e then
      (inl true,
       log (EvSecret file true)
           (set_fs (<["encrypted.env" :=
                       {| data := Text (encryptedEnv e);
                          mode := Z.land 420 (Z.lnot (umask s)) |}]> (fs s)) s))
    else (inl false, log (EvSecret file false) s).

(** Modelled from the spec: [utils.LoadAppConfig]. It parses the persisted
    record; a missing or corrupt file is an error. *)
Definition LoadAppConfig : M (option SidekickAppConfig) :=
  fun s =>
    match fs s !! "sidekick.yml" with
    | Some {| data := RecordYaml cfg |} => (inl (Some cfg), s)
    | _ => (inl None, s)
    end.

End utils.

(** ** [cmd/launch.go]

    Messages, spinners and the progress bar only print and are left out;
    so is the [utils.FileExists] test, whose two branches differ in the
    message alone. *)

Module launch.
Import GoStrings.

(** The loop over the Dockerfile's lines: every line that begins with
    [EXPOSE] overwrites [appPort] with [line[len(line)-4:]]. [None] is the
    run-time panic of an out-of-range slice. *)
Fixpoint scanPort (lines : list string) (appPort : string) : option string :=
  match lines with
  | [] => Some appPort
  | line :: rest =>
      if HasPrefix line "EXPOSE" then
        match slice_from line (len line - 4) with
        | Some p => scanPort rest p
        | None => None
        end
      else scanPort rest appPort
  end.

(** [string(res)] after [os.ReadFile]: a failed read leaves [res] nil. *)
Definition dockerfileText (e : Env) : string :=
  match dockerfile e with Some t => t | None => "" end.

Definition nameLabel : string := "Please enter your app url friendly app name".
Definition portLabel : string :=
  "Please enter the port at which the app receives request".
Definition domainLabel : string := "Please enter the domain to point the app to".

(** The default offered at the domain prompt. *)
Definition defaultDomain (e : Env) (appName : string) : string :=
  appName +:+ "." +:+ serverAddress e +:+ ".sslip.io".

Definition imageName (e : Env) (appName : string) : string :=
  dockerUsername e +:+ "/" +:+ appName.

Definition newService (e : Env) (appName appDomain appPort : string)
  : DockerService :=
  {| Image := imageName e appName;
     Labels :=
       [ "traefik.enable=true";
         "traefik.http.routers." +:+ appName +:+ ".rule=Host(`" +:+ appDomain +:+ "`)";
         "traefik.http.services." +:+ appName +:+ ".loadbalancer.server.port=" +:+ appPort;
         "traefik.http.routers." +:+ appName +:+ ".tls=true";
         "traefik.http.routers." +:+ appName +:+ ".tls.certresolver=default";
         "traefik.docker.network=sidekick" ];
     Environment := [];
     Networks := ["sidekick"] |}.

Definition newDockerCompose (e : Env) (appName appDomain appPort : string)
  : DockerComposeFile :=
  {| Services := {[ appName := newService e appName appDomain appPort ]};
     ComposeNetworks := {[ "sidekick" := {| External := true |} ]} |}.

Definition sidekickAppConfig (e : Env) (appName appDomain : string)
  : SidekickAppConfig :=
  {| Name := "";
     AppImage := dockerUsername e +:+ "/" +:+ appName;
     Port := 0%N;
     Url := appDomain;
     CreatedAt := now e;
     LastDeployedAt := now e;
     EnvFile := "";
     PreviewEnvs := ∅ |}.

(** [yaml.Marshal(&sidekickAppConfig)] with the error dropped. *)
Definition recordBytes (e : Env) (cfg : SidekickAppConfig) : FileData :=
  if recordMarshalOk e then RecordYaml cfg else Text "".

(** The body of [launchCmd.Run], statement by statement. *)
Definition body (e : Env) : M unit :=
  when_ (negb (configOk e)) Panic ;;;
  keysOk <- utils.runScript e SshKeysScript [serverAddress e] ;;
  when_ (negb keysOk) Panic ;;;
  appPort <- match scanPort (Split (dockerfileText e) newline) "" with
             | Some p => ret p
             | None => abort Panic
             end ;;
  appName <- utils.Show e nameLabel "" ;;
  when_ (String.eqb appName "" || Contains appName " ") (Exit 0) ;;;
  appPort <- utils.Show e portLabel appPort ;;
  when_ (String.eqb appPort "") (Exit 0) ;;;
  appDomain <- utils.Show e domainLabel (defaultDomain e appName) ;;
  when_ (negb (marshalOk e)) Return ;;;
  written <- os.WriteFile e "docker-compose.yaml"
               (ComposeYaml (newDockerCompose e appName appDomain appPort)) 420 ;;
  when_ (negb written) Return ;;;
  os.deferRemove "docker-compose.yaml" ;;;
  loggedIn <- utils.Login e (serverAddress e) ;;
  when_ (negb loggedIn) Panic ;;;
  built <- utils.runScript e DockerHandleScript
             [appName; dockerUsername e; cwd e] ;;
  when_ (negb built) Panic ;;;
  made <- utils.RunCommand e OpMkdir ("mkdir " +:+ appName) ;;
  when_ (negb made) Panic ;;;
  utils.rsync "docker-compose.yaml"
    ("root@" +:+ serverAddress e +:+ ":" +:+ "./" +:+ appName) ;;;
  up <- utils.RunCommand e OpActivate
          ("cd " +:+ appName +:+ " && docker compose -p sidekick up -d") ;;
  when_ (negb up) Panic ;;;
  _ <- os.WriteFile e "sidekick.yml"
         (recordBytes e (sidekickAppConfig e appName appDomain)) 420 ;;
  ret tt.

Definition run (e : Env) (s : State) : Outcome * State := runFunc (body e) s.

(** The values the variables of [Run] take in environment [e]. *)
Definition scannedPort (e : Env) : string :=
  match scanPort (Split (dockerfileText e) newline) "" with
  | Some p => p
  | None => ""
  end.
Definition appName (e : Env) : string := utils.answered e nameLabel "".
Definition appPort (e : Env) : string := utils.answered e portLabel (scannedPort e).
Definition appDomain (e : Env) : string :=
  utils.answered e domainLabel (defaultDomain e (appName e)).

End launch.

(** ** [cmd/preview/preview.go]

    [log.Fatal], [log.Fatalln] and [log.Fatalf] print and call
    [os.Exit(1)]. *)

Module preview.
Import GoStrings.

Definition imageName (cfg : SidekickAppConfig) (deployHash : string) : string :=
  Name cfg +:+ ":" +:+ deployHash.

Definition serviceName (cfg : SidekickAppConfig) (deployHash : string) : string :=
  Name cfg +:+ "-" +:+ deployHash.

Definition previewURL (cfg : SidekickAppConfig) (deployHash : string) : string :=
  deployHash +:+ "." +:+ Url cfg.

Definition newService (cfg : SidekickAppConfig) (deployHash : string)
    (dockerEnvProperty : list string) : DockerService :=
  let serviceName := serviceName cfg deployHash in
  {| Image := imageName cfg deployHash;
     Labels :=
       [ "traefik.enable=true";
         "traefik.http.routers." +:+ serviceName +:+ ".rule=Host(`"
           +:+ previewURL cfg deployHash +:+ "`)";
         "traefik.http.services." +:+ serviceName
           +:+ ".loadbalancer.server.port=" +:+ Sprint (Port cfg);
         "traefik.http.routers." +:+ serviceName +:+ ".tls=true";
         "traefik.http.routers." +:+ serviceName +:+ ".tls.certresolver=default";
         "traefik.docker.network=sidekick" ];
     Environment := dockerEnvProperty;
     Networks := ["sidekick"] |}.

Definition newDockerCompose (cfg : SidekickAppConfig) (deployHash : string)
    (dockerEnvProperty : list string) : DockerComposeFile :=
  {| Services :=
       {[ serviceName cfg deployHash := newService cfg deployHash dockerEnvProperty ]};
     ComposeNetworks := {[ "sidekick" := {| External := true |} ]} |}.

Definition previewEnvConfig (e : Env) (cfg : SidekickAppConfig)
    (deployHash : string) : SidekickPreview :=
  {| PreviewUrl := "https://" +:+ previewURL cfg deployHash;
     PreviewImage := imageName cfg deployHash;
     PreviewCreatedAt := now e |}.

(** [appConfig.PreviewEnvs = map[string]utils.SidekickPreview{}] followed
    by [appConfig.PreviewEnvs[deployHash] = previewEnvConfig]. *)
Definition updatedConfig (e : Env) (cfg : SidekickAppConfig)
    (deployHash : string) : SidekickAppConfig :=
  {| Name := Name cfg;
     AppImage := AppImage cfg;
     Port := Port cfg;
     Url := Url cfg;
     CreatedAt := CreatedAt cfg;
     LastDeployedAt := LastDeployedAt cfg;
     EnvFile := EnvFile cfg;
     PreviewEnvs := <[ deployHash := previewEnvConfig e cfg deployHash ]> ∅ |}.

Definition recordBytes (e : Env) (cfg : SidekickAppConfig) : FileData :=
  if recordMarshalOk e then RecordYaml cfg else Text "".

Definition previewDir (cfg : SidekickAppConfig) (deployHash : string) : string :=
  Name cfg +:+ "/preview/" +:+ deployHash.

(** The body of [PreviewCmd.Run], statement by statement. *)
Definition body (e : Env) : M unit :=
  when_ (negb (configOk e)) (Exit 1) ;;;
  loaded <- utils.LoadAppConfig ;;
  match loaded with
  | None => abort (Exit 1)
  | Some appConfig =>
    _ <- utils.runScript e CheckGitTreeScript [] ;;
    when_ (negb (String.eqb (scriptOut e CheckGitTreeScript) ("all good" +:+ nl)))
          (Exit 1) ;;;
    hashOk <- utils.runScript e GitShortHash [] ;;
    when_ (negb hashOk) Panic ;;;
    let deployHash := TrimSuffix (scriptOut e GitShortHash) nl in
    loggedIn <- utils.Login e (serverAddress e) ;;
    when_ (negb loggedIn) Panic ;;;
    dockerEnvProperty <-
      (if String.eqb (EnvFile appConfig) "" then ret []
       else
         envOk <- utils.HandleEnvFile e (EnvFile appConfig) ;;
         when_ (negb envOk) Panic ;;;
         ret (envProperty e)) ;;
    os.deferRemove "encrypted.env" ;;;
    when_ (negb (marshalOk e)) Return ;;;
    written <- os.WriteFile e "docker-compose.yaml"
                 (ComposeYaml (newDockerCompose appConfig deployHash dockerEnvProperty))
                 420 ;;
    when_ (negb written) Return ;;;
    os.deferRemove "docker-compose.yaml" ;;;
    built <- utils.runScript e DockerBuildAndSaveScript
               [Name appConfig; cwd e; deployHash] ;;
    when_ (negb built) (Exit 1) ;;;
    moved <- utils.runScript e ImageMoveScript
               [Name appConfig; "sidekick"; serverAddress e; deployHash] ;;
    when_ (negb moved) (Exit 1) ;;;
    loadedImage <- utils.RunCommand e OpLoadImage
                     ("cd " +:+ Name appConfig +:+ " && docker load -i "
                        +:+ Name appConfig +:+ "-" +:+ deployHash +:+ ".tar") ;;
    when_ (negb loadedImage) (Exit 1) ;;;
    cleaned <- utils.RunCommand e OpRemoveArchive
                 ("cd " +:+ Name appConfig +:+ " && rm "
                    +:+ Name appConfig +:+ "-" +:+ deployHash +:+ ".tar") ;;
    when_ (negb cleaned) (Exit 1) ;;;
    made <- utils.RunCommand e OpMkdir
              ("mkdir -p " +:+ previewDir appConfig deployHash) ;;
    when_ (negb made) Panic ;;;
    utils.rsync "docker-compose.yaml"
      ("sidekick@" +:+ serverAddress e +:+ ":" +:+ "./"
         +:+ previewDir appConfig deployHash) ;;;
    (if negb (String.eqb (EnvFile appConfig) "") then
       utils.rsync "encrypted.env"
         ("sidekick@" +:+ serverAddress e +:+ ":" +:+ "./"
            +:+ previewDir appConfig deployHash) ;;;
       up <- utils.RunCommand e OpActivate
               ("cd " +:+ previewDir appConfig deployHash
                  +:+ " && sops exec-env encrypted.env 'docker compose -p sidekick up -d'") ;;
       when_ (negb up) Panic
     else
       up <- utils.RunCommand e OpActivate
               ("cd " +:+ previewDir appConfig deployHash
                  +:+ " && docker compose -p sidekick up -d") ;;
       when_ (negb up) Panic) ;;;
    _ <- os.WriteFile e "./sidekick.yml"
           (recordBytes e (updatedConfig e appConfig deployHash)) 420 ;;
    ret tt
  end.

Definition run (e : Env) (s : State) : Outcome * State := runFunc (body e) s.

(** The revision hash a run works with. *)
Definition deployHash (e : Env) : string :=
  TrimSuffix (scriptOut e GitShortHash) nl.

End preview.

(** ** Pipeline stages, read off the trace *)

Inductive Stage :=
| Authenticated
| ImageReady
| DescriptorWritten
| Transferred
| RemoteDirectoryReady
| RemoteActivated
| RecordPersisted.

(** The stage an effect completes, if any: a successful login, the last
    step that makes the image available (the build-and-push script for a
    launch, the remote [docker load] for a preview), the write of the
    compose document, the remote [mkdir], the copy of the compose document,
    the remote [docker compose up], the write of the record. *)
Definition stageOf (ev : Event) : option Stage :=
  match ev with
  | EvLogin _ true => Some Authenticated
  | EvScript DockerHandleScript _ true => Some ImageReady
  | EvRemote OpLoadImage _ true => Some ImageReady
  | EvWriteFile path _ _ true =>
      if String.eqb path "docker-compose.yaml" then Some DescriptorWritten
      else if String.eqb path "sidekick.yml" then Some RecordPersisted
      else None
  | EvRemote OpMkdir _ true => Some RemoteDirectoryReady
  | EvRsync src _ =>
      if String.eqb src "docker-compose.yaml" then Some Transferred else None
  | EvRemote OpActivate _ true => Some RemoteActivated
  | _ => None
  end.

Definition stages (t : list Event) : list Stage := omap stageOf t.

(** The order of section 4.4 of the specification. *)
Definition specifiedOrder : list Stage :=
  [ Authenticated; ImageReady; DescriptorWritten; Transferred;
    RemoteDirectoryReady; RemoteActivated; RecordPersisted ].

(** A file mode that gives group and others no access at all. *)
Definition ownerOnly (m : Z) : Prop := Z.land m 63 = 0.

(** The six routing labels for service [name], host [host], port [port]:
    routing enable, host rule, load-balancer port, TLS enable, certificate
    resolver, network membership. *)
Definition routingLabels (name host port : string) : list string :=
  [ "traefik.enable=true";
    "traefik.http.routers." +:+ name +:+ ".rule=Host(`" +:+ host +:+ "`)";
    "traefik.http.services." +:+ name +:+ ".loadbalancer.server.port=" +:+ port;
    "traefik.http.routers." +:+ name +:+ ".tls=true";
    "traefik.http.routers." +:+ name +:+ ".tls.certresolver=default";
    "traefik.docker.network=sidekick" ].

(** The order in which a launch, respectively a preview, goes through the
    stages. *)
Definition launchOrder : list Stage :=
  [ DescriptorWritten; Authenticated; ImageReady; RemoteDirectoryReady;
    Transferred; RemoteActivated; RecordPersisted ].

Definition previewOrder : list Stage :=
  [ Authenticated; DescriptorWritten; ImageReady; RemoteDirectoryReady;
    Transferred; RemoteActivated; RecordPersisted ].

(** Every compose document written during a trace satisfies [P]. *)
Definition composeWrites (P : DockerComposeFile -> Prop) (t : list Event) : Prop :=
  Forall (fun ev => match ev with
                    | EvWriteFile _ (ComposeYaml doc) _ _ => P doc
                    | _ => True
                    end) t.

(** Every write to the record's path satisfies [P] on data and mode. *)
Definition recordWrites (P : FileData -> Z -> Prop) (t : list Event) : Prop :=
  Forall (fun ev => match ev with
                    | EvWriteFile path d perm _ =>
                        path = "sidekick.yml" -> P d perm
                    | _ => True
                    end) t.

(** The two commands under one name. *)
Inductive Command := Launch | Preview.

Definition execute (c : Command) (e : Env) (s : State) : Outcome * State :=
  match c with
  | Launch => launch.run e s
  | Preview => preview.run e s
  end.

Definition pipelineOrder (c : Command) : list Stage :=
  match c with
  | Launch => launchOrder
  | Preview => previewOrder
  end.

(** The service name, public hostname and container port a command works
    with: for a launch what the prompts returned, for a preview what the
    record and the revision hash give. *)
Definition resolved (c : Command) (e : Env) (s : State)
  : option (string * string * string) :=
  match c with
  | Launch => Some (launch.appName e, launch.appDomain e, launch.appPort e)
  | Preview =>
      match fs s !! "sidekick.yml" with
      | Some {| data := RecordYaml cfg |} =>
          Some (preview.serviceName cfg (preview.deployHash e),
                preview.previewURL cfg (preview.deployHash e),
                GoStrings.Sprint (Port cfg))
      | _ => None
      end
  end.

(** No login, no local write, no remote command. *)
Definition quiet (ev : Event) : Prop :=
  match ev with
  | EvLogin _ _ | EvWriteFile _ _ _ _ | EvRemote _ _ _ | EvRsync _ _ => False
  | _ => True
  end.

(** ** Sample environments and states *)

Module sample.
Import GoStrings.

(** Server 1.2.3.4, registry user bob, everything else succeeding. *)
Definition env (df : option string) (ans : string -> option string)
    (scripts : Script -> list string -> bool) : Env :=
  {| configOk := true;
     serverAddress := "1.2.3.4";
     dockerUsername := "bob";
     dockerfile := df;
     cwd := "/home/bob/shop";
     answer := ans;
     scriptOk := scripts;
     scriptOut := fun sc =>
       match sc with
       | CheckGitTreeScript => "all good" +:+ nl
       | _ => "def456" +:+ nl
       end;
     loginOk := true;
     remoteOk := fun _ => true;
     marshalOk := true;
     recordMarshalOk := true;
     writeOk := fun _ => true;
     envOk := true;
     envProperty := ["API_KEY=${API_KEY}"];
     encryptedEnv := "sops-encrypted";
     now := "Mon Jan  1 10:00:00 UTC 2024" |}.

Definition dockerfile80 : string :=
  "FROM node:20" +:+ nl +:+ "EXPOSE 80" +:+ nl +:+ "CMD node index.js".

(** The user names the app [shop] and accepts every default. *)
Definition nameOnly (label : string) : option string :=
  if String.eqb label launch.nameLabel then Some "shop" else None.

(** The user accepts every default, the empty app name included. *)
Definition nothing (label : string) : option string := None.

Definition allScripts (sc : Script) (args : list string) : bool := true.

Definition buildFails (sc : Script) (args : list string) : bool :=
  match sc with
  | DockerBuildAndSaveScript => false
  | _ => true
  end.

Definition shop : Env := env (Some dockerfile80) nameOnly allScripts.
Definition noName : Env := env (Some dockerfile80) nothing allScripts.
Definition noPort : Env := env None nameOnly allScripts.
Definition brokenBuild : Env := env (Some dockerfile80) nameOnly buildFails.

(** An empty project directory and an empty remote home, umask 022. *)
Definition fresh : State :=
  {| fs := ∅; umask := 18; remoteDirs := ∅; trace := []; deferred := [] |}.

Definition record (envFile : string) : SidekickAppConfig :=
  {| Name := "shop";
     AppImage := "bob/shop";
     Port := 3000%N;
     Url := "shop.1.2.3.4.sslip.io";
     CreatedAt := "Mon Jan  1 09:00:00 UTC 2024";
     LastDeployedAt := "Mon Jan  1 09:00:00 UTC 2024";
     EnvFile := envFile;
     PreviewEnvs :=
       {[ "abc123" := {| PreviewUrl := "https://abc123.shop.1.2.3.4.sslip.io";
                         PreviewImage := "shop:abc123";
                         PreviewCreatedAt := "Mon Jan  1 09:30:00 UTC 2024" |} ]} |}.

(** After a launch of [shop]: the record is there, with one earlier
    preview, and so is the remote directory. *)
Definition launched (envFile : string) : State :=
  {| fs := {[ "sidekick.yml" := {| data := RecordYaml (record envFile); mode := 420 |} ]};
     umask := 18;
     remoteDirs := {[ "shop" ]};
     trace := [];
     deferred := [] |}.

End sample.

(** ** Further predicates on events and further scenarios *)

(** Nothing happens on or towards the remote host: no remote command, no
    file copy, no image build or image move. *)
Definition offline (ev : Event) : Prop :=
  match ev with
  | EvRemote _ _ _ | EvRsync _ _ => False
  | EvScript DockerHandleScript _ _
  | EvScript DockerBuildAndSaveScript _ _
  | EvScript ImageMoveScript _ _ => False
  | _ => True
  end.


(** What every compose document has besides its service's image, labels and
    environment: one service, on the network [sidekick], and that network
    declared external. *)
Definition composeShape (doc : DockerComposeFile) : Prop :=
  size (Services doc) = 1%nat /\
  (forall name svc, Services doc !! name = Some svc -> Networks svc = ["sidekick"]) /\
  ComposeNetworks doc = {[ "sidekick" := {| External := true |} ]}.

Module scenario.
Import GoStrings.

(** Like [sample.env] with the Dockerfile of [sample.dockerfile80] and the
    app name [shop], but with the configuration, the login, the marshalling,
    the output of the git check and the writable paths left open. *)
Definition env (cfgOk login marshal : bool) (gitOut : string)
    (writable : string -> bool) (ans : string -> option string) : Env :=
  {| configOk := cfgOk;
     serverAddress := "1.2.3.4";
     dockerUsername := "bob";
     dockerfile := Some sample.dockerfile80;
     cwd := "/home/bob/shop";
     answer := ans;
     scriptOk := sample.allScripts;
     scriptOut := fun sc =>
       match sc with
       | CheckGitTreeScript => gitOut
       | _ => "def456" +:+ nl
       end;
     loginOk := login;
     remoteOk := fun _ => true;
     marshalOk := marshal;
     recordMarshalOk := true;
     writeOk := writable;
     envOk := true;
     envProperty := ["API_KEY=${API_KEY}"];
     encryptedEnv := "sops-encrypted";
     now := "Mon Jan  1 10:00:00 UTC 2024" |}.

Definition anyPath (path : string) : bool := true.

Definition spacedName (label : string) : option string :=
  if String.eqb label launch.nameLabel then Some "my shop" else None.

Definition clean : string := "all good" +:+ nl.

Definition noLogin : Env := env true false true clean anyPath sample.nameOnly.
Definition noConfig : Env := env false true true clean anyPath sample.nameOnly.
Definition dirtyTree : Env :=
  env true true true (" M main.go" +:+ nl) anyPath sample.nameOnly.
Definition spaced : Env := env true true true clean anyPath spacedName.


(** A project that keeps a compose file of its own. *)
Definition withCompose : State :=
  {| fs := {[ "docker-compose.yaml" := {| data := Text "services: {}"; mode := 420 |} ]};
     umask := 18;
     remoteDirs := ∅;
     trace := [];
     deferred := [] |}.

End scenario.

(** ** Reasoning rules for the monad *)

(** [wp m Q s]: running [m] from [s] ends in a result and state that
    satisfy [Q]. *)
Definition wp {A} (m : M A) (Q : A + Abort -> State -> Prop) (s : State) : Prop :=
  Q (fst (m s)) (snd (m s)).

Section wp_rules.
Context {A B : Type}.
Implicit Types (Q : B + Abort -> State -> Prop) (s : State).

Lemma wp_bind (m : M A) (k : A -> M B) Q s :
  wp m (fun r s' => match r with
                    | inl a => wp (k a) Q s'
                    | inr e => Q (inr e) s'
                    end) s ->
  wp (bind m k) Q s.
Proof.
  unfold wp, bind. destruct (m s) as [[a|e] s']; simpl; auto.
Qed.

Lemma wp_ret (b : B) Q s : Q (inl b) s -> wp (ret b) Q s.
Proof. auto. Qed.

Lemma wp_abort (e : Abort) Q s : Q (inr e) s -> wp (abort e) Q s.
Proof. auto. Qed.

Lemma wp_if (c : bool) (m1 m2 : M B) Q s :
  (c = true -> wp m1 Q s) -> (c = false -> wp m2 Q s) ->
  wp (if c then m1 else m2) Q s.
Proof. destruct c; auto. Qed.
End wp_rules.

Lemma wp_when (c : bool) (e : Abort) Q s :
  (c = true -> Q (inr e) s) -> (c = false -> Q (inl tt) s) ->
  wp (when_ c e) Q s.
Proof. unfold when_, wp. destruct c; simpl; auto. Qed.

Lemma wp_modify f Q s : Q (inl tt) (f s) -> wp (modify f) Q s.
Proof. auto. Qed.

Lemma wp_Show e label d Q s :
  Q (inl (utils.answered e label d))
    (log (EvPrompt label d (utils.answered e label d)) s) ->
  wp (utils.Show e label d) Q s.
Proof. auto. Qed.

Lemma wp_runScript e sc args Q s :
  (scriptOk e sc args = true -> Q (inl true) (log (EvScript sc args true) s)) ->
  (scriptOk e sc args = false -> Q (inl false) (log (EvScript sc args false) s)) ->
  wp (utils.runScript e sc args) Q s.
Proof.
  intros Hok Hfail. unfold wp, utils.runScript.
  destruct (scriptOk e sc args); simpl; auto.
Qed.

Lemma wp_Login e addr Q s :
  (loginOk e = true -> Q (inl true) (log (EvLogin addr true) s)) ->
  (loginOk e = false -> Q (inl false) (log (EvLogin addr false) s)) ->
  wp (utils.Login e addr) Q s.
Proof.
  intros Hok Hfail. unfold wp, utils.Login.
  destruct (loginOk e); simpl; auto.
Qed.

Lemma wp_WriteFile e name p d perm Q s :
  os.clean name = p ->
  (writeOk e p = true ->
   Q (inl true)
     (log (EvWriteFile p d perm true)
        (set_fs (<[p := {| data := d;
                           mode := match fs s !! p with
                                   | Some f => mode f
                                   | None => Z.land perm (Z.lnot (umask s))
                                   end |}]> (fs s)) s))) ->
  (writeOk e p = false -> Q (inl false) (log (EvWriteFile p d perm false) s)) ->
  wp (os.WriteFile e name d perm) Q s.
Proof.
  intros <- Hok Hfail. unfold wp, os.WriteFile.
  destruct (writeOk e (os.clean name)); simpl; auto.
Qed.

Lemma wp_RunCommand e op cmd Q s :
  (forall dirs, remoteOk e cmd = true ->
     utils.remoteShell cmd (remoteDirs s) = (true, dirs) ->
     Q (inl true) (log (EvRemote op cmd true) (set_remoteDirs dirs s))) ->
  (forall dirs, remoteOk e cmd = true ->
     utils.remoteShell cmd (remoteDirs s) = (false, dirs) ->
     Q (inl false) (log (EvRemote op cmd false) (set_remoteDirs dirs s))) ->
  (remoteOk e cmd = false -> Q (inl false) (log (EvRemote op cmd false) s)) ->
  wp (utils.RunCommand e op cmd) Q s.
Proof.
  intros Hok Hno Hfail. unfold wp, utils.RunCommand.
  destruct (remoteOk e cmd); [|simpl; auto].
  destruct (utils.remoteShell cmd (remoteDirs s)) as [[|] dirs]; simpl; auto.
Qed.

Lemma wp_HandleEnvFile e file Q s :
  (envOk e = true ->
   Q (inl true)
     (log (EvSecret file true)
        (set_fs (<["encrypted.env" :=
                    {| data := Text (encryptedEnv e);
                       mode := Z.land 420 (Z.lnot (umask s)) |}]> (fs s)) s))) ->
  (envOk e = false -> Q (inl false) (log (EvSecret file false) s)) ->
  wp (utils.HandleEnvFile e file) Q s.
Proof.
  intros Hok Hfail. unfold wp, utils.HandleEnvFile.
  destruct (envOk e); simpl; auto.
Qed.

Lemma wp_LoadAppConfig Q s :
  (forall cfg m, fs s !! "sidekick.yml" = Some {| data := RecordYaml cfg; mode := m |} ->
                 Q (inl (Some cfg)) s) ->
  ((forall cfg m, fs s !! "sidekick.yml" <> Some {| data := RecordYaml cfg; mode := m |}) ->
   Q (inl None) s) ->
  wp utils.LoadAppConfig Q s.
Proof.
  intros Hok Hfail. unfold wp, utils.LoadAppConfig.
  destruct (fs s !! "sidekick.yml") as [[[b|doc|cfg] m]|] eqn:E; simpl;
    first [ by eapply Hok | apply Hfail; intros; congruence ].
Qed.

Lemma wp_runFunc (body : M unit) (P : Outcome * State -> Prop) s :
  wp body (fun r s' => P (finish r s')) (boot s) -> P (runFunc body s).
Proof.
  unfold wp, runFunc. destruct (body (boot s)) as [r s']; auto.
Qed.

Lemma wp_when_true (e : Abort) Q s : Q (inr e) s -> wp (when_ true e) Q s.
Proof. auto. Qed.

Lemma wp_when_false (e : Abort) Q s : Q (inl tt) s -> wp (when_ false e) Q s.
Proof. auto. Qed.

(** One step of symbolic execution, outermost statement first. *)
Ltac wp_step :=
  lazymatch goal with
  | |- wp (bind _ _) _ _ => apply wp_bind
  | |- wp (when_ (negb true) _) _ _ => apply wp_when_false
  | |- wp (when_ (negb false) _) _ _ => apply wp_when_true
  | |- wp (when_ _ _) _ _ => apply wp_when; intros ?
  | |- wp (ret _) _ _ => apply wp_ret
  | |- wp (abort _) _ _ => apply wp_abort
  | |- wp (modify _) _ _ => apply wp_modify
  | |- wp (os.deferRemove _) _ _ => apply wp_modify
  | |- wp (utils.rsync _ _) _ _ => apply wp_modify
  | |- wp (utils.Show _ _ _) _ _ => apply wp_Show
  | |- wp (utils.runScript _ _ _) _ _ => apply wp_runScript; intros ?
  | |- wp (utils.Login _ _) _ _ => apply wp_Login; intros ?
  | |- wp (os.WriteFile _ ?name _ _) _ _ =>
      let p := eval vm_compute in (os.clean name) in
      apply (wp_WriteFile _ name p); [reflexivity|intros ?|intros ?]
  | |- wp (utils.RunCommand _ _ _) _ _ => apply wp_RunCommand; [intros ? ? ?|intros ? ? ?|intros ?]
  | |- wp (utils.HandleEnvFile _ _) _ _ => apply wp_HandleEnvFile; intros ?
  | |- wp utils.LoadAppConfig _ _ => apply wp_LoadAppConfig; [intros ? ? ?|intros ?]
  | |- wp (if _ then _ else _) _ _ => apply wp_if; intros ?
  | |- wp (match ?x with Some _ => _ | None => _ end) _ _ => destruct x eqn:?
  end; cbv beta iota zeta.

Ltac wp_run := repeat wp_step.

(** Projections of the final state, without touching the maps. *)
Ltac st_simpl :=
  cbn [fst snd finish os.runDeferred os.removeAll os.Remove
       fs umask remoteDirs trace deferred
       log set_fs set_remoteDirs set_deferred boot app].

Ltac wp_launch :=
  unfold launch.run;
  lazymatch goal with
  | |- context [runFunc (launch.body ?e) ?s] =>
      pattern (runFunc (launch.body e) s); apply wp_runFunc; unfold launch.body
  end.

Ltac wp_preview :=
  unfold preview.run;
  lazymatch goal with
  | |- context [runFunc (preview.body ?e) ?s] =>
      pattern (runFunc (preview.body e) s); apply wp_runFunc; unfold preview.body
  end.

(** ** Strings and the Dockerfile scan *)

Import GoStrings.

Lemma clean_compose : os.clean "docker-compose.yaml" = "docker-compose.yaml".
Proof. reflexivity. Qed.
Lemma clean_record : os.clean "sidekick.yml" = "sidekick.yml".
Proof. reflexivity. Qed.
Lemma clean_record_dot : os.clean "./sidekick.yml" = "sidekick.yml".
Proof. reflexivity. Qed.
Lemma clean_secret : os.clean "encrypted.env" = "encrypted.env".
Proof. reflexivity. Qed.

Ltac cleans := rewrite ?clean_compose, ?clean_secret.

Lemma drop_length n s : String.length (drop n s) = (String.length s - n)%nat.
Proof.
  revert s. induction n as [|n IH]; intros [|c t]; simpl; auto with arith.
Qed.

Lemma append_cons c a b : String c a +:+ b = String c (a +:+ b).
Proof. reflexivity. Qed.

Lemma take_drop n s : take n s +:+ drop n s = s.
Proof.
  revert s. induction n as [|n IH]; intros [|c t]; simpl; auto.
  rewrite append_cons. f_equal. apply IH.
Qed.

Lemma prefix_length p s : String.prefix p s = true -> (String.length p <= String.length s)%nat.
Proof.
  revert s. induction p as [|c p IH]; intros [|d t]; simpl; try lia; try discriminate.
  destruct (ascii_dec c d); [|discriminate]. intros H. apply IH in H. lia.
Qed.

Lemma slice_last4 line :
  HasPrefix line "EXPOSE" = true ->
  slice_from line (len line - 4) = Some (drop (String.length line - 4) line).
Proof.
  intros H. apply prefix_length in H. simpl in H.
  unfold slice_from, len.
  destruct (Z.ltb_spec (Z.of_nat (String.length line) - 4) 0); [lia|].
  destruct (Z.ltb_spec (Z.of_nat (String.length line)) (Z.of_nat (String.length line) - 4)); [lia|].
  simpl. do 2 f_equal. lia.
Qed.

Lemma scanPort_last lines init :
  launch.scanPort lines init =
  Some (match last (List.filter (fun l => HasPrefix l "EXPOSE") lines) with
        | Some line => drop (String.length line - 4) line
        | None => init
        end).
Proof.
  revert init. induction lines as [|line rest IH]; intros init; [done|].
  cbn [launch.scanPort List.filter].
  destruct (HasPrefix line "EXPOSE") eqn:E.
  - rewrite slice_last4 by done. rewrite IH.
    destruct (List.filter _ rest) as [|a l] eqn:F; [reflexivity|].
    change (last (line :: a :: l)) with (last (a :: l)).
    destruct (last (a :: l)) eqn:L; [reflexivity|].
    apply last_None in L. discriminate.
  - apply IH.
Qed.

Lemma scanPort_total lines init : is_Some (launch.scanPort lines init).
Proof. rewrite scanPort_last. eauto. Qed.

(** Closes a branch whose conditions contradict what is known. *)
Ltac absurd_branch :=
  exfalso;
  unfold launch.appName in *;
  repeat match goal with
         | H : negb _ = true |- _ => apply negb_true_iff in H
         | H : negb _ = false |- _ => apply negb_false_iff in H
         | H : orb _ _ = false |- _ => apply orb_false_iff in H; destruct H
         end;
  match goal with
  | H : true = false |- _ => discriminate H
  | H : false = true |- _ => discriminate H
  | H : ?x = true, H' : ?x = false |- _ => rewrite H in H'; discriminate H'
  | H : orb ?a ?b = true, Ha : ?a = false, Hb : ?b = false |- _ =>
      rewrite Ha, Hb in H; discriminate H
  | H : Some _ = None |- _ => discriminate H
  | H : None = Some _ |- _ => discriminate H
  end.

(** ** The port offered at the prompt *)

(** C10. When the Dockerfile has a line beginning with [EXPOSE], the default
    offered at the port prompt of a launch is the last four bytes of the
    last such line: the line is [pre] followed by the offered [p], and [p]
    is four bytes long. It is not the token after the keyword. *)
Theorem launch_port_default e s line :
  configOk e = true ->
  scriptOk e SshKeysScript [serverAddress e] = true ->
  String.eqb (launch.appName e) "" = false ->
  Contains (launch.appName e) " " = false ->
  last (List.filter (fun l => HasPrefix l "EXPOSE")
          (Split (launch.dockerfileText e) newline)) = Some line ->
  exists pre p,
    line = pre +:+ p /\ String.length p = 4%nat /\
    In (EvPrompt launch.portLabel p (launch.appPort e))
       (trace (snd (launch.run e s))).
Proof.
  intros Hcfg Hkeys Hname Hspace Hlast.
  assert (Hlen : (6 <= String.length line)%nat).
  { assert (Hin : In line (List.filter (fun l => HasPrefix l "EXPOSE")
                             (Split (launch.dockerfileText e) newline))).
    { apply list_elem_of_In, last_Some_elem_of, Hlast. }
    apply filter_In in Hin as [_ Hp]. by apply prefix_length in Hp. }
  pose proof (scanPort_last (Split (launch.dockerfileText e) newline) "") as Hscan.
  rewrite Hlast in Hscan.
  exists (take (String.length line - 4) line), (drop (String.length line - 4) line).
  split; [by rewrite take_drop|]. split; [rewrite drop_length; lia|].
  unfold launch.appPort, launch.scannedPort. rewrite Hscan.
  wp_launch. rewrite Hscan. fold (launch.appName e).
  wp_run; try absurd_branch; st_simpl; cbn [In];
    repeat (first [left; reflexivity | right]).
Qed.

(** Symbolic execution of a launch: the port scanned from the Dockerfile is
    named first, so that the run and the statement agree on it. *)
Ltac launch_exec e :=
  let p := fresh "port0" in
  let H := fresh "Hscan" in
  destruct (scanPort_total (Split (launch.dockerfileText e) newline) "") as [p H];
  unfold launch.appDomain, launch.appPort, launch.appName, launch.scannedPort in *;
  rewrite ?H in *;
  wp_launch; rewrite H; wp_run.

(** A branch that did not run to completion. *)
Ltac not_completed :=
  st_simpl; let H := fresh in intros H; discriminate H.

(** ** The public hostname of a launch *)

(** C2, as amended. When the user accepts the default at the domain prompt,
    the hostname a completed launch works with is
    [<name>.<serverAddress>.sslip.io]: it is the value of [appDomain], the
    [Url] of the persisted record and the host of the routing rule in the
    compose document. *)
Theorem launch_default_host e s :
  answer e launch.domainLabel = None ->
  fst (launch.run e s) = Completed ->
  writeOk e "sidekick.yml" = true ->
  recordMarshalOk e = true ->
  let host := launch.appName e +:+ "." +:+ serverAddress e +:+ ".sslip.io" in
  launch.appDomain e = host /\
  (exists cfg m,
     fs (snd (launch.run e s)) !! "sidekick.yml"
       = Some {| data := RecordYaml cfg; mode := m |} /\
     Url cfg = host) /\
  (exists doc svc,
     In (EvWriteFile "docker-compose.yaml" (ComposeYaml doc) 420 true)
        (trace (snd (launch.run e s))) /\
     Services doc !! launch.appName e = Some svc /\
     Labels svc = routingLabels (launch.appName e) host (launch.appPort e)).
Proof.
  intros Hans Hdone Hw Hm host. subst host.
  assert (Hdom : launch.appDomain e
                 = launch.appName e +:+ "." +:+ serverAddress e +:+ ".sslip.io").
  { unfold launch.appDomain, utils.answered. by rewrite Hans. }
  split; [exact Hdom|]. rewrite <- Hdom. clear Hdom Hans.
  revert Hdone.
  launch_exec e; try not_completed; try absurd_branch.
  st_simpl. intros _. cleans. split.
  - rewrite lookup_delete_ne by done. rewrite lookup_insert_eq.
    unfold launch.recordBytes. rewrite Hm. eauto.
  - eexists _, _. split; [cbn [In]; do 4 right; left; reflexivity|].
    split; [apply lookup_singleton_eq | reflexivity].
Qed.

(** A property of every event of an explicit trace, event by event. *)
Ltac each_event tac :=
  st_simpl;
  repeat first [ apply List.Forall_nil | apply List.Forall_cons; [tac|] ].

Ltac label_event :=
  cbv beta iota;
  lazymatch goal with
  | |- True => exact I
  | |- ex _ => do 4 eexists; repeat split; reflexivity
  | |- _ => unfold launch.recordBytes, preview.recordBytes;
            destruct (recordMarshalOk _); exact I
  end.

(** ** Routing labels *)

(** C3. Every compose document written by either command has one service,
    under the resolved service name, carrying exactly the six routing labels
    in order: routing enable, host rule on the resolved hostname,
    load-balancer port on the declared port, TLS enable, the certificate
    resolver [default], membership of the network [sidekick]. *)
Theorem routing_labels c e s :
  composeWrites
    (fun doc =>
       exists name host port svc,
         resolved c e s = Some (name, host, port) /\
         Services doc = {[ name := svc ]} /\
         Labels svc = routingLabels name host port /\
         length (Labels svc) = 6%nat)
    (trace (snd (execute c e s))).
Proof.
  unfold composeWrites. destruct c; cbn [execute resolved].
  - launch_exec e; each_event label_event.
  - unfold preview.deployHash. wp_preview. wp_run;
      repeat match goal with
             | H : fs (boot _) !! _ = Some _ |- _ => cbn [fs boot] in H; rewrite H
             end;
      each_event label_event.
Qed.

(** Symbolic execution of a preview; the record the run loads is the one
    the state holds. *)
Ltac preview_exec :=
  unfold preview.deployHash in *; wp_preview; wp_run;
  repeat match goal with
         | H : fs (boot _) !! _ = Some _ |- _ => cbn [fs boot] in H
         | H : forall cfg m, fs (boot _) !! _ <> Some _ |- _ => cbn [fs boot] in H
         end.

Ltac same_record :=
  match goal with
  | H1 : fs ?s !! ?k = Some _, H2 : fs ?s !! ?k = Some _ |- _ =>
      rewrite H1 in H2; injection H2 as <- <-
  | H1 : fs ?s !! ?k = Some _, H2 : forall cfg m, fs ?s !! ?k <> Some _ |- _ =>
      exfalso; exact (H2 _ _ H1)
  end.

(** ** Preview naming *)

(** C1. In a completed preview of the app named [n] at revision [h], the
    compose document holds the single service [n-h] with image [n:h] and the
    host rule on [h.<appUrl>], and the record written back has under [h] an
    entry whose image is [n:h]. *)
Theorem preview_naming e s cfg m :
  fs s !! "sidekick.yml" = Some {| data := RecordYaml cfg; mode := m |} ->
  fst (preview.run e s) = Completed ->
  writeOk e "sidekick.yml" = true ->
  recordMarshalOk e = true ->
  let n := Name cfg in
  let h := preview.deployHash e in
  (exists doc svc,
     In (EvWriteFile "docker-compose.yaml" (ComposeYaml doc) 420 true)
        (trace (snd (preview.run e s))) /\
     Services doc = {[ n +:+ "-" +:+ h := svc ]} /\
     Image svc = n +:+ ":" +:+ h /\
     Labels svc = routingLabels (n +:+ "-" +:+ h) (h +:+ "." +:+ Url cfg)
                    (Sprint (Port cfg))) /\
  (exists rec m' pe,
     fs (snd (preview.run e s)) !! "sidekick.yml"
       = Some {| data := RecordYaml rec; mode := m' |} /\
     PreviewEnvs rec !! h = Some pe /\
     PreviewImage pe = n +:+ ":" +:+ h).
Proof.
  intros Hfs Hdone Hw Hm n h. subst n h. revert Hdone.
  preview_exec; try not_completed; try absurd_branch; try same_record.
  all: st_simpl; intros _; cleans; split.
  all: try (do 2 eexists; split;
            [cbn [In]; repeat (first [left; reflexivity | right])|];
            repeat split; reflexivity).
  all: rewrite !lookup_delete_ne by done; rewrite lookup_insert_eq;
       unfold preview.recordBytes; rewrite Hm;
       do 3 eexists; split; [reflexivity|]; split;
       [apply lookup_insert_eq | reflexivity].
Qed.

(** C6. After a completed preview at revision [h] the persisted record's
    preview map is the singleton for [h]: whatever the record held before
    under another revision is gone. *)
Theorem preview_map_replaced e s cfg m :
  fs s !! "sidekick.yml" = Some {| data := RecordYaml cfg; mode := m |} ->
  fst (preview.run e s) = Completed ->
  writeOk e "sidekick.yml" = true ->
  recordMarshalOk e = true ->
  let h := preview.deployHash e in
  exists rec m',
    fs (snd (preview.run e s)) !! "sidekick.yml"
      = Some {| data := RecordYaml rec; mode := m' |} /\
    PreviewEnvs rec = {[ h := preview.previewEnvConfig e cfg h ]} /\
    dom (PreviewEnvs rec) = {[ h ]} /\
    forall h', h' <> h -> PreviewEnvs rec !! h' = None.
Proof.
  intros Hfs Hdone Hw Hm h. subst h. revert Hdone.
  preview_exec; try not_completed; try absurd_branch; try same_record.
  all: st_simpl; intros _; cleans.
  all: rewrite !lookup_delete_ne by done; rewrite lookup_insert_eq;
       unfold preview.recordBytes; rewrite Hm;
       do 2 eexists; split; [reflexivity|];
       cbn [PreviewEnvs preview.updatedConfig]; rewrite insert_empty;
       split; [reflexivity|]; split;
       [apply dom_singleton_L | intros h' Hne; by apply lookup_singleton_ne].
Qed.

(** ** Stage order *)

Lemma stages_prefix c e s :
  stages (trace (snd (execute c e s))) `prefix_of` pipelineOrder c.
Proof.
  destruct c; cbn [execute pipelineOrder].
  - launch_exec e; st_simpl; vm_compute; eexists; reflexivity.
  - preview_exec; st_simpl; vm_compute; eexists; reflexivity.
Qed.

Lemma stages_completed c e s :
  fst (execute c e s) = Completed ->
  writeOk e "sidekick.yml" = true ->
  stages (trace (snd (execute c e s))) = pipelineOrder c.
Proof.
  intros Hdone Hw. revert Hdone. destruct c; cbn [execute pipelineOrder].
  - launch_exec e; try not_completed; try absurd_branch.
    st_simpl. intros _. reflexivity.
  - preview_exec; try not_completed; try absurd_branch.
    all: st_simpl; intros _; reflexivity.
Qed.

(** C4, as amended. A launch goes through the stages in the order
    descriptor written, authenticated, image ready, remote directory ready,
    transferred, remote activated, record persisted; a preview authenticates
    first and then follows the same order. Every run reaches an initial
    segment of its command's order, and a completed run whose record write
    succeeds reaches all of it. *)
Theorem stage_order c e s :
  stages (trace (snd (execute c e s))) `prefix_of` pipelineOrder c /\
  (fst (execute c e s) = Completed ->
   writeOk e "sidekick.yml" = true ->
   stages (trace (snd (execute c e s))) = pipelineOrder c).
Proof.
  split; [apply stages_prefix | apply stages_completed].
Qed.

(** The order of the specification is not the order of either command: a
    launch writes the compose document before it logs in and before it
    builds the image, a preview writes it before it builds the image. *)
Lemma stage_order_counterexample :
  fst (launch.run sample.shop sample.fresh) = Completed /\
  stages (trace (snd (launch.run sample.shop sample.fresh))) =
    DescriptorWritten :: Authenticated :: ImageReady ::
    [RemoteDirectoryReady; Transferred; RemoteActivated; RecordPersisted] /\
  stages (trace (snd (launch.run sample.shop sample.fresh))) <> specifiedOrder /\
  fst (preview.run sample.shop (sample.launched "")) = Completed /\
  stages (trace (snd (preview.run sample.shop (sample.launched "")))) =
    Authenticated :: DescriptorWritten :: ImageReady ::
    [RemoteDirectoryReady; Transferred; RemoteActivated; RecordPersisted] /\
  stages (trace (snd (preview.run sample.shop (sample.launched "")))) <> specifiedOrder.
Proof.
  repeat split; try (vm_compute; reflexivity); vm_compute; discriminate.
Qed.

(** ** Transient artifacts *)

(** C5. A preview whose image build fails leaves through [os.Exit(1)], which
    runs no deferred call: the compose document and the encrypted
    environment file are still in the working directory afterwards. *)
Theorem preview_failed_build_leaves_artifacts :
  let out := preview.run sample.brokenBuild (sample.launched ".env") in
  fst out = Exited 1 /\
  exitStatus (fst out) = 1 /\
  is_Some (fs (snd out) !! "docker-compose.yaml") /\
  is_Some (fs (snd out) !! "encrypted.env").
Proof.
  vm_compute. repeat split; eauto.
Qed.


(** A preview that runs to completion removes both artifacts. *)
Lemma preview_completed_cleans e s :
  fst (preview.run e s) = Completed ->
  fs (snd (preview.run e s)) !! "docker-compose.yaml" = None /\
  fs (snd (preview.run e s)) !! "encrypted.env" = None.
Proof.
  preview_exec; try not_completed.
  all: st_simpl; intros _; cleans; split;
       [rewrite lookup_delete_ne by done|]; apply lookup_delete_eq.
Qed.

(** ** Empty interactive input *)

(** C7. When the app name typed is empty, or the name is valid and the port
    is empty, a launch stops through [os.Exit(0)]: the exit status is zero.
    The local files are untouched and the trace has no login, no write and
    no remote command. *)
Theorem launch_empty_input_exits_zero e s :
  configOk e = true ->
  scriptOk e SshKeysScript [serverAddress e] = true ->
  launch.appName e = "" \/
    (String.eqb (launch.appName e) "" = false /\
     Contains (launch.appName e) " " = false /\
     launch.appPort e = "") ->
  fst (launch.run e s) = Exited 0 /\
  exitStatus (fst (launch.run e s)) = 0 /\
  fs (snd (launch.run e s)) = fs s /\
  Forall quiet (trace (snd (launch.run e s))).
Proof.
  intros Hcfg Hkeys Hin.
  launch_exec e; try absurd_branch.
  all: destruct Hin as [Hn|(Hn & Hsp & Hp)].
  all: try (exfalso;
            repeat match goal with
                   | H : negb _ = true |- _ => apply negb_true_iff in H
                   | H : negb _ = false |- _ => apply negb_false_iff in H
                   | H : orb _ _ = false |- _ => apply orb_false_iff in H; destruct H
                   end;
            rewrite ?Hn, ?Hp in *; cbn in *; congruence).
  all: st_simpl; repeat split; each_event ltac:(exact I).
Qed.

(** ** The remote directory *)

Lemma contains_space_prefix name rest :
  Contains name " " = false -> String.prefix ("-p " +:+ rest) name = false.
Proof.
  intros H.
  change ("-p " +:+ rest) with (String "-" (String "p" (String " " rest))).
  destruct name as [|a t]; [reflexivity|]. cbn [String.prefix].
  destruct (ascii_dec "-" a) as [<-|]; [|reflexivity].
  destruct t as [|b t]; [reflexivity|]. cbn [String.prefix].
  destruct (ascii_dec "p" b) as [<-|]; [|reflexivity].
  destruct t as [|c t]; [reflexivity|]. cbn [String.prefix].
  destruct (ascii_dec " " c) as [<-|]; [|reflexivity].
  exfalso.
  change (Contains (String "-" (String "p" (String " " t))) " ")
    with (String.prefix "" t || Contains t " ") in H.
  destruct t; discriminate H.
Qed.

(** [mkdir name] on the remote host when [name] is already there. *)
Lemma mkdir_existing name dirs :
  Contains name " " = false ->
  name ∈ dirs ->
  utils.remoteShell ("mkdir " +:+ name) dirs = (false, dirs).
Proof.
  intros Hsp Hin. unfold utils.remoteShell, HasPrefix.
  change (String.prefix "mkdir -p " ("mkdir " +:+ name))
    with (String.prefix ("-p " +:+ "") name).
  rewrite contains_space_prefix by done.
  change (String.prefix "mkdir " ("mkdir " +:+ name)) with (String.prefix "" name).
  change (drop 6 ("mkdir " +:+ name)) with name.
  destruct name; cbn [String.prefix]; by rewrite bool_decide_eq_true_2.
Qed.


(** C8. A launch whose app directory already exists on the remote host never
    completes: its [mkdir] (without [-p]) fails there, so the remote
    directory stage, the activation and the record write are never
    reached. *)
Theorem launch_existing_directory_aborts e s :
  launch.appName e ∈ remoteDirs s ->
  fst (launch.run e s) <> Completed /\
  ~ In RemoteDirectoryReady (stages (trace (snd (launch.run e s)))) /\
  ~ In RemoteActivated (stages (trace (snd (launch.run e s)))) /\
  ~ In RecordPersisted (stages (trace (snd (launch.run e s)))).
Proof.
  intros Hin.
  launch_exec e;
    try match goal with
        | H : utils.remoteShell _ _ = (true, _) |- _ =>
            exfalso; cbn [remoteDirs log set_fs set_deferred boot] in H;
            rewrite mkdir_existing in H;
            [ discriminate H
            | match goal with
              | Ho : orb _ _ = false |- _ =>
                  apply orb_false_iff in Ho; exact (proj2 Ho)
              end
            | exact Hin ]
        end.
  all: st_simpl; split; [discriminate|];
       vm_compute; intuition discriminate.
Qed.

Ltac write_event :=
  cbv beta iota;
  lazymatch goal with
  | |- True => exact I
  | |- _ => intros _; reflexivity
  end.

(** ** Writing the record *)

Lemma record_writes_mode c e s :
  recordWrites (fun _ perm => perm = 420) (trace (snd (execute c e s))).
Proof.
  unfold recordWrites. destruct c; cbn [execute].
  - launch_exec e; each_event write_event.
  - preview_exec; each_event write_event.
Qed.

Lemma record_overwritten c e s :
  fst (execute c e s) = Completed ->
  writeOk e "sidekick.yml" = true ->
  exists d,
    In (EvWriteFile "sidekick.yml" d 420 true) (trace (snd (execute c e s))) /\
    fs (snd (execute c e s)) !! "sidekick.yml"
      = Some {| data := d;
                mode := match fs s !! "sidekick.yml" with
                        | Some f => mode f
                        | None => Z.land 420 (Z.lnot (umask s))
                        end |}.
Proof.
  intros Hdone Hw. revert Hdone. destruct c; cbn [execute].
  - launch_exec e; try not_completed; try absurd_branch.
    st_simpl. intros _. cleans. eexists. split.
    + cbn [In]. repeat (first [left; reflexivity | right]).
    + rewrite lookup_delete_ne by done. rewrite lookup_insert_eq.
      by rewrite lookup_insert_ne by done.
  - preview_exec; try not_completed; try absurd_branch.
    all: st_simpl; intros _; cleans; eexists; split;
      [ cbn [In]; repeat (first [left; reflexivity | right]) |].
    all: rewrite !lookup_delete_ne by done; rewrite lookup_insert_eq;
         rewrite ?lookup_insert_ne by done; reflexivity.
Qed.

(** C9, as amended. Every write to [sidekick.yml] asks for mode 0644 (420).
    In a completed run whose write succeeds the file holds exactly the data
    written; its mode is the one it had before when it existed, and 0644
    less the umask when it was created. *)
Theorem record_write c e s :
  recordWrites (fun _ perm => perm = 420) (trace (snd (execute c e s))) /\
  (fst (execute c e s) = Completed ->
   writeOk e "sidekick.yml" = true ->
   exists d,
     In (EvWriteFile "sidekick.yml" d 420 true) (trace (snd (execute c e s))) /\
     fs (snd (execute c e s)) !! "sidekick.yml"
       = Some {| data := d;
                 mode := match fs s !! "sidekick.yml" with
                         | Some f => mode f
                         | None => Z.land 420 (Z.lnot (umask s))
                         end |}).
Proof.
  split; [apply record_writes_mode | apply record_overwritten].
Qed.

(** A freshly created record is readable by group and others. *)
Lemma record_mode_counterexample :
  fst (launch.run sample.shop sample.fresh) = Completed /\
  exists f,
    fs (snd (launch.run sample.shop sample.fresh)) !! "sidekick.yml" = Some f /\
    mode f = 420 /\
    ~ ownerOnly (mode f).
Proof.
  split; [vm_compute; reflexivity|].
  eexists. split; [vm_compute; reflexivity|].
  split; [reflexivity|]. vm_compute. discriminate.
Qed.

(** With the default accepted, the hostname is not [<name>.<serverAddress>]. *)
Lemma launch_default_host_counterexample :
  answer sample.shop launch.domainLabel = None /\
  fst (launch.run sample.shop sample.fresh) = Completed /\
  launch.appDomain sample.shop = "shop.1.2.3.4.sslip.io" /\
  launch.appDomain sample.shop
    <> launch.appName sample.shop +:+ "." +:+ serverAddress sample.shop /\
  exists cfg m,
    fs (snd (launch.run sample.shop sample.fresh)) !! "sidekick.yml"
      = Some {| data := RecordYaml cfg; mode := m |} /\
    Url cfg <> launch.appName sample.shop +:+ "." +:+ serverAddress sample.shop.
Proof.
  split; [reflexivity|]. split; [vm_compute; reflexivity|].
  split; [vm_compute; reflexivity|]. split; [vm_compute; discriminate|].
  eexists _, _. split; [vm_compute; reflexivity|]. vm_compute. discriminate.
Qed.

(** ** The theorems at the sample inputs *)

Lemma preview_naming_witness :
  exists rec m' pe,
    fs (snd (preview.run sample.shop (sample.launched ""))) !! "sidekick.yml"
      = Some {| data := RecordYaml rec; mode := m' |} /\
    PreviewEnvs rec !! "def456" = Some pe /\
    PreviewImage pe = "shop:def456".
Proof.
  destruct (preview_naming sample.shop (sample.launched "") (sample.record "") 420)
    as [_ H]; [vm_compute; reflexivity ..|exact H].
Defined.

Lemma launch_default_host_witness :
  launch.appDomain sample.shop = "shop.1.2.3.4.sslip.io".
Proof.
  destruct (launch_default_host sample.shop sample.fresh) as [H _];
    [vm_compute; reflexivity ..|exact H].
Defined.

Lemma stage_order_witness :
  stages (trace (snd (execute Launch sample.shop sample.fresh))) = launchOrder /\
  stages (trace (snd (execute Preview sample.shop (sample.launched ".env"))))
    = previewOrder.
Proof.
  split.
  - apply (proj2 (stage_order Launch sample.shop sample.fresh));
      vm_compute; reflexivity.
  - apply (proj2 (stage_order Preview sample.shop (sample.launched ".env")));
      vm_compute; reflexivity.
Defined.

Lemma preview_map_replaced_witness :
  PreviewEnvs (sample.record "") !! "abc123" <> None /\
  exists rec m',
    fs (snd (preview.run sample.shop (sample.launched ""))) !! "sidekick.yml"
      = Some {| data := RecordYaml rec; mode := m' |} /\
    PreviewEnvs rec !! "abc123" = None.
Proof.
  split; [vm_compute; discriminate|].
  destruct (preview_map_replaced sample.shop (sample.launched "") (sample.record "") 420)
    as (rec & m' & Hfs & _ & _ & Hother); [vm_compute; reflexivity ..|].
  exists rec, m'. split; [exact Hfs|]. apply Hother. vm_compute. discriminate.
Defined.

Lemma launch_empty_input_exits_zero_witness :
  exitStatus (fst (launch.run sample.noName sample.fresh)) = 0 /\
  exitStatus (fst (launch.run sample.noPort sample.fresh)) = 0.
Proof.
  split.
  - apply (launch_empty_input_exits_zero sample.noName sample.fresh);
      [reflexivity | reflexivity | left; reflexivity].
  - apply (launch_empty_input_exits_zero sample.noPort sample.fresh);
      [reflexivity | reflexivity | right; repeat split; vm_compute; reflexivity].
Defined.

Lemma launch_existing_directory_aborts_witness :
  fst (launch.run sample.shop (sample.launched "")) <> Completed.
Proof.
  apply (launch_existing_directory_aborts sample.shop (sample.launched "")).
  vm_compute. reflexivity.
Defined.

Lemma record_write_witness :
  exists d,
    fs (snd (execute Launch sample.shop sample.fresh)) !! "sidekick.yml"
      = Some {| data := d; mode := 420 |}.
Proof.
  destruct (proj2 (record_write Launch sample.shop sample.fresh))
    as (d & _ & H); [vm_compute; reflexivity ..|].
  exists d. exact H.
Defined.

Lemma launch_port_default_witness :
  exists pre p,
    "EXPOSE 80" = pre +:+ p /\ String.length p = 4%nat /\
    In (EvPrompt launch.portLabel p "E 80")
       (trace (snd (launch.run sample.shop sample.fresh))).
Proof.
  apply (launch_port_default sample.shop sample.fresh "EXPOSE 80");
    vm_compute; reflexivity.
Defined.

(** ** Further properties of the launch command *)

(** Lookups in the final file system, through the deletions and insertions
    of a run. *)
Ltac fs_lookup :=
  repeat first [ rewrite lookup_delete_eq
               | rewrite lookup_delete_ne by done
               | rewrite lookup_insert_eq
               | rewrite lookup_insert_ne by done ].

(** X1. Whatever the Dockerfile holds, the scan for [EXPOSE] does not stop a
    launch: the slice [line[len(line)-4:]] is only taken on lines of at
    least six bytes, so once the configuration is read and the key script
    has run, the name prompt is shown. *)
Theorem launch_scan_reaches_prompt e s :
  configOk e = true ->
  scriptOk e SshKeysScript [serverAddress e] = true ->
  In (EvPrompt launch.nameLabel "" (launch.appName e))
     (trace (snd (launch.run e s))).
Proof.
  intros Hcfg Hkeys.
  launch_exec e; try absurd_branch; st_simpl; cbn [In];
    repeat (first [left; reflexivity | right]).
Qed.

Lemma launch_scan_reaches_prompt_witness :
  In (EvPrompt launch.nameLabel "" "shop")
     (trace (snd (launch.run sample.shop sample.fresh))).
Proof.
  apply (launch_scan_reaches_prompt sample.shop sample.fresh); reflexivity.
Defined.

(** X2. When no line of the Dockerfile begins with [EXPOSE] (an unreadable
    Dockerfile included), the port prompt offers the empty default, and a
    user who accepts it ends the launch through [os.Exit(0)]. *)
Theorem launch_port_default_empty e s :
  configOk e = true ->
  scriptOk e SshKeysScript [serverAddress e] = true ->
  String.eqb (launch.appName e) "" = false ->
  Contains (launch.appName e) " " = false ->
  List.filter (fun l => HasPrefix l "EXPOSE")
    (Split (launch.dockerfileText e) newline) = [] ->
  In (EvPrompt launch.portLabel "" (launch.appPort e))
     (trace (snd (launch.run e s))) /\
  (answer e launch.portLabel = None -> fst (launch.run e s) = Exited 0).
Proof.
  intros Hcfg Hkeys Hname Hspace Hnone.
  pose proof (scanPort_last (Split (launch.dockerfileText e) newline) "") as Hscan.
  rewrite Hnone in Hscan. cbn [last] in Hscan.
  unfold launch.appPort, launch.scannedPort. rewrite Hscan.
  wp_launch. rewrite Hscan. fold (launch.appName e).
  wp_run; try absurd_branch; st_simpl.
  all: split; [cbn [In]; repeat (first [left; reflexivity | right])|].
  all: try reflexivity.
  all: intros Hans; exfalso;
       match goal with
       | H : negb (String.eqb (utils.answered _ launch.portLabel "") "") = true |- _ =>
           unfold utils.answered in H; rewrite Hans in H; discriminate H
       | H : String.eqb (utils.answered _ launch.portLabel "") "" = false |- _ =>
           unfold utils.answered in H; rewrite Hans in H; discriminate H
       end.
Qed.

Lemma launch_port_default_empty_witness :
  fst (launch.run sample.noPort sample.fresh) = Exited 0.
Proof.
  apply (launch_port_default_empty sample.noPort sample.fresh);
    vm_compute; reflexivity.
Defined.

(** X3. An app name with a space in it ends the launch through
    [os.Exit(0)] before anything is written, logged into or run remotely. *)
Theorem launch_space_in_name_exits_zero e s :
  configOk e = true ->
  scriptOk e SshKeysScript [serverAddress e] = true ->
  Contains (launch.appName e) " " = true ->
  fst (launch.run e s) = Exited 0 /\
  fs (snd (launch.run e s)) = fs s /\
  remoteDirs (snd (launch.run e s)) = remoteDirs s /\
  Forall quiet (trace (snd (launch.run e s))).
Proof.
  intros Hcfg Hkeys Hsp.
  launch_exec e; try absurd_branch.
  all: try (exfalso;
            match goal with
            | H : orb _ _ = false |- _ =>
                apply orb_false_iff in H; destruct H as [_ H];
                rewrite Hsp in H; discriminate H
            end).
  all: st_simpl; repeat split; each_event ltac:(exact I).
Qed.

Lemma launch_space_in_name_exits_zero_witness :
  fst (launch.run scenario.spaced sample.fresh) = Exited 0.
Proof.
  apply (launch_space_in_name_exits_zero scenario.spaced sample.fresh);
    vm_compute; reflexivity.
Defined.

(** X4. A launch that logs in, writes a file, copies a file or runs a remote
    command has a non-empty app name without a space and a non-empty
    port. *)
Theorem launch_validates_before_acting e s :
  Forall quiet (trace (snd (launch.run e s))) \/
  (String.eqb (launch.appName e) "" = false /\
   Contains (launch.appName e) " " = false /\
   String.eqb (launch.appPort e) "" = false).
Proof.
  launch_exec e;
    first [ left; each_event ltac:(exact I); fail
          | right;
            repeat match goal with
                   | H : orb _ _ = false |- _ =>
                       apply orb_false_iff in H; destruct H
                   end;
            repeat split; assumption ].
Qed.


(** X6. A run of either command that completes removes
    [docker-compose.yaml] from the working directory, also when the project
    had a file of that name before the run. *)
Theorem completed_run_deletes_compose c e s :
  fst (execute c e s) = Completed ->
  fs (snd (execute c e s)) !! "docker-compose.yaml" = None /\
  In (EvRemove "docker-compose.yaml") (trace (snd (execute c e s))).
Proof.
  destruct c; cbn [execute].
  - launch_exec e; try not_completed.
    all: st_simpl; intros _; cleans; split;
      [ fs_lookup; reflexivity
      | cbn [In]; repeat (first [left; reflexivity | right]) ].
  - preview_exec; try not_completed.
    all: st_simpl; intros _; cleans; split;
      [ fs_lookup; reflexivity
      | cbn [In]; repeat (first [left; reflexivity | right]) ].
Qed.

(** X7. Every [os.Exit] of a launch has status 0, every [os.Exit] and
    [log.Fatal] of a preview has status 1. *)
Theorem exit_codes c e s :
  match fst (execute c e s) with
  | Exited k => k = match c with Launch => 0 | Preview => 1 end
  | _ => True
  end.
Proof.
  destruct c; cbn [execute].
  - launch_exec e; st_simpl; first [exact I | reflexivity].
  - preview_exec; st_simpl; first [exact I | reflexivity].
Qed.

(** ** Further properties of the preview command *)



(** X9. When the git check prints anything but [all good], a preview ends
    with status 1 and has logged in nowhere, written nothing and run
    nothing remotely. *)
Theorem preview_unclean_tree_aborts e s cfg m :
  configOk e = true ->
  fs s !! "sidekick.yml" = Some {| data := RecordYaml cfg; mode := m |} ->
  String.eqb (scriptOut e CheckGitTreeScript) ("all good" +:+ nl) = false ->
  fst (preview.run e s) = Exited 1 /\
  fs (snd (preview.run e s)) = fs s /\
  remoteDirs (snd (preview.run e s)) = remoteDirs s /\
  Forall quiet (trace (snd (preview.run e s))).
Proof.
  intros Hcfg Hfs Hgit.
  preview_exec; try absurd_branch; try same_record.
  all: st_simpl; repeat split; each_event ltac:(exact I).
Qed.

Lemma preview_unclean_tree_aborts_witness :
  fst (preview.run scenario.dirtyTree (sample.launched "")) = Exited 1 /\
  fs (snd (preview.run scenario.dirtyTree (sample.launched "")))
    = fs (sample.launched "").
Proof.
  destruct (preview_unclean_tree_aborts scenario.dirtyTree (sample.launched "")
              (sample.record "") 420) as (H1 & H2 & _);
    [vm_compute; reflexivity ..|].
  split; [exact H1 | exact H2].
Defined.

(** X10. Without the global configuration, or without a readable record, a
    preview ends with status 1 before any effect at all. *)
Theorem preview_uninitialized_aborts e s :
  configOk e = false \/
  (forall cfg m, fs s !! "sidekick.yml" <> Some {| data := RecordYaml cfg; mode := m |}) ->
  fst (preview.run e s) = Exited 1 /\
  fs (snd (preview.run e s)) = fs s /\
  trace (snd (preview.run e s)) = [].
Proof.
  intros Hin.
  preview_exec; try absurd_branch.
  all: destruct Hin as [Hcfg|Hrec];
       try (exfalso;
            match goal with
            | H : negb (configOk _) = false |- _ =>
                rewrite Hcfg in H; discriminate H
            | H : fs _ !! _ = Some _ |- _ => exact (Hrec _ _ H)
            end).
  all: st_simpl; repeat split.
Qed.

Lemma preview_uninitialized_aborts_witness :
  fst (preview.run scenario.noConfig (sample.launched "")) = Exited 1 /\
  fst (preview.run sample.shop sample.fresh) = Exited 1.
Proof.
  split.
  - apply (preview_uninitialized_aborts scenario.noConfig (sample.launched "")).
    left. reflexivity.
  - apply (preview_uninitialized_aborts sample.shop sample.fresh).
    right. intros cfg m. vm_compute. discriminate.
Defined.

(** X11. The record a completed preview writes back keeps the mode of the
    file and every field of the record it loaded, [LastDeployedAt]
    included; only the preview map changes, to the entry with url
    [https://<h>.<url>], image [<name>:<h>] and the current time. *)
Theorem preview_record_rewritten e s cfg m :
  fs s !! "sidekick.yml" = Some {| data := RecordYaml cfg; mode := m |} ->
  fst (preview.run e s) = Completed ->
  writeOk e "sidekick.yml" = true ->
  recordMarshalOk e = true ->
  let h := preview.deployHash e in
  exists rec,
    fs (snd (preview.run e s)) !! "sidekick.yml"
      = Some {| data := RecordYaml rec; mode := m |} /\
    Name rec = Name cfg /\ AppImage rec = AppImage cfg /\
    Port rec = Port cfg /\ Url rec = Url cfg /\
    CreatedAt rec = CreatedAt cfg /\
    LastDeployedAt rec = LastDeployedAt cfg /\
    EnvFile rec = EnvFile cfg /\
    PreviewEnvs rec !! h
      = Some {| PreviewUrl := "https://" +:+ h +:+ "." +:+ Url cfg;
                PreviewImage := Name cfg +:+ ":" +:+ h;
                PreviewCreatedAt := now e |}.
Proof.
  intros Hfs Hdone Hw Hm h. subst h. revert Hdone.
  preview_exec; try not_completed; try absurd_branch; try same_record.
  all: st_simpl; intros _; cleans; fs_lookup.
  all: unfold preview.recordBytes; rewrite Hm, ?Hfs; eexists;
       split; [reflexivity|]; repeat split; apply lookup_insert_eq.
Qed.

Lemma preview_record_rewritten_witness :
  exists rec,
    fs (snd (preview.run sample.shop (sample.launched ""))) !! "sidekick.yml"
      = Some {| data := RecordYaml rec; mode := 420 |} /\
    LastDeployedAt rec = "Mon Jan  1 09:00:00 UTC 2024".
Proof.
  destruct (preview_record_rewritten sample.shop (sample.launched "")
              (sample.record "") 420)
    as (rec & H1 & _ & _ & _ & _ & _ & H2 & _); [vm_compute; reflexivity ..|].
  exists rec. split; [exact H1 | exact H2].
Defined.

Ltac in_trace := cbn [In]; repeat (first [left; reflexivity | right]).

(** X12. With no environment file configured, a completed preview prepares
    no secret, copies no [encrypted.env], gives the service an empty
    environment and activates with the plain [docker compose up]. *)
Theorem preview_without_env_file e s cfg m :
  fs s !! "sidekick.yml" = Some {| data := RecordYaml cfg; mode := m |} ->
  EnvFile cfg = "" ->
  fst (preview.run e s) = Completed ->
  let dir := Name cfg +:+ "/preview/" +:+ preview.deployHash e in
  Forall (fun ev => match ev with
                    | EvSecret _ _ => False
                    | EvRsync src _ => src <> "encrypted.env"
                    | _ => True
                    end) (trace (snd (preview.run e s))) /\
  In (EvRemote OpActivate
        ("cd " +:+ dir +:+ " && docker compose -p sidekick up -d") true)
     (trace (snd (preview.run e s))) /\
  composeWrites (fun doc => forall name svc,
                   Services doc !! name = Some svc -> Environment svc = [])
    (trace (snd (preview.run e s))).
Proof.
  intros Hfs Hnone Hdone dir. subst dir. revert Hdone. unfold composeWrites.
  preview_exec; try not_completed; try same_record;
    try (exfalso;
         match goal with
         | H : String.eqb (EnvFile _) "" = false |- _ =>
             rewrite Hnone in H; discriminate H
         | H : negb (String.eqb (EnvFile _) "") = true |- _ =>
             rewrite Hnone in H; discriminate H
         end).
  all: st_simpl; intros _; split; [|split; [in_trace|]].
  all: each_event ltac:(
         cbv beta iota;
         lazymatch goal with
         | |- True => exact I
         | |- _ <> _ => discriminate
         | |- forall _ _, _ -> _ =>
             let Hl := fresh in
             intros name svc Hl;
             cbn [Services preview.newDockerCompose] in Hl;
             apply lookup_singleton_Some in Hl as [_ <-]; reflexivity
         | |- _ => unfold preview.recordBytes;
                   destruct (recordMarshalOk _); exact I
         end).
Qed.

Lemma preview_without_env_file_witness :
  In (EvRemote OpActivate
        "cd shop/preview/def456 && docker compose -p sidekick up -d" true)
     (trace (snd (preview.run sample.shop (sample.launched "")))).
Proof.
  destruct (preview_without_env_file sample.shop (sample.launched "")
              (sample.record "") 420) as (_ & H & _);
    [vm_compute; reflexivity ..|exact H].
Defined.

(** X13. With an environment file configured, a completed preview has
    prepared the secret, copied [encrypted.env] into the preview directory,
    given the service the prepared environment and activated through
    [sops exec-env]. *)
Theorem preview_with_env_file e s cfg m :
  fs s !! "sidekick.yml" = Some {| data := RecordYaml cfg; mode := m |} ->
  String.eqb (EnvFile cfg) "" = false ->
  fst (preview.run e s) = Completed ->
  let dir := Name cfg +:+ "/preview/" +:+ preview.deployHash e in
  In (EvSecret (EnvFile cfg) true) (trace (snd (preview.run e s))) /\
  In (EvRsync "encrypted.env" ("sidekick@" +:+ serverAddress e +:+ ":./" +:+ dir))
     (trace (snd (preview.run e s))) /\
  In (EvRemote OpActivate
        ("cd " +:+ dir
           +:+ " && sops exec-env encrypted.env 'docker compose -p sidekick up -d'")
        true)
     (trace (snd (preview.run e s))) /\
  composeWrites (fun doc => forall name svc,
                   Services doc !! name = Some svc ->
                   Environment svc = envProperty e)
    (trace (snd (preview.run e s))).
Proof.
  intros Hfs Hfile Hdone dir. subst dir. revert Hdone. unfold composeWrites.
  preview_exec; try not_completed; try same_record;
    try (exfalso;
         match goal with
         | H : String.eqb (EnvFile _) "" = true |- _ =>
             rewrite Hfile in H; discriminate H
         | H : negb (String.eqb (EnvFile _) "") = false |- _ =>
             rewrite Hfile in H; discriminate H
         end).
  all: st_simpl; intros _; split; [in_trace|]; split; [in_trace|];
       split; [in_trace|].
  all: each_event ltac:(
         cbv beta iota;
         lazymatch goal with
         | |- True => exact I
         | |- forall _ _, _ -> _ =>
             let Hl := fresh in
             intros name svc Hl;
             cbn [Services preview.newDockerCompose] in Hl;
             apply lookup_singleton_Some in Hl as [_ <-]; reflexivity
         | |- _ => unfold preview.recordBytes;
                   destruct (recordMarshalOk _); exact I
         end).
Qed.

Lemma preview_with_env_file_witness :
  In (EvRemote OpActivate
        "cd shop/preview/def456 && sops exec-env encrypted.env 'docker compose -p sidekick up -d'"
        true)
     (trace (snd (preview.run sample.shop (sample.launched ".env")))).
Proof.
  destruct (preview_with_env_file sample.shop (sample.launched ".env")
              (sample.record ".env") 420) as (_ & _ & H & _);
    [vm_compute; reflexivity ..|exact H].
Defined.


(** ** Properties of both commands *)

Ltac shape_event :=
  cbv beta iota;
  lazymatch goal with
  | |- True => exact I
  | |- composeShape _ =>
      unfold composeShape;
      cbn [Services ComposeNetworks preview.newDockerCompose launch.newDockerCompose];
      split; [apply map_size_singleton|];
      split; [|reflexivity];
      let Hl := fresh in
      intros ? ? Hl; apply lookup_singleton_Some in Hl as [_ <-]; reflexivity
  | |- _ => unfold launch.recordBytes, preview.recordBytes;
            destruct (recordMarshalOk _); exact I
  end.

(** X15. Every compose document either command writes has exactly one
    service, attached to the network [sidekick], and declares that network
    and no other, as external. *)
Theorem compose_shape c e s :
  composeWrites composeShape (trace (snd (execute c e s))).
Proof.
  unfold composeWrites. destruct c; cbn [execute].
  - launch_exec e; each_event shape_event.
  - preview_exec; each_event shape_event.
Qed.

Ltac offline_event :=
  cbv beta iota;
  first [ exact I
        | unfold launch.recordBytes, preview.recordBytes;
          destruct (recordMarshalOk _); exact I ].





(** X18. When the login fails, neither command completes, and neither has
    built an image, copied a file or run a remote command. *)
Theorem failed_login_stops_everything c e s :
  loginOk e = false ->
  fst (execute c e s) <> Completed /\
  Forall offline (trace (snd (execute c e s))).
Proof.
  intros Hlogin. destruct c; cbn [execute].
  - launch_exec e; try absurd_branch;
      (st_simpl; split; [discriminate | each_event offline_event]).
  - preview_exec; try absurd_branch;
      (st_simpl; split; [discriminate | each_event offline_event]).
Qed.

Lemma failed_login_stops_everything_witness :
  fst (execute Launch scenario.noLogin sample.fresh) = Panicked /\
  Forall offline (trace (snd (execute Launch scenario.noLogin sample.fresh))) /\
  Forall offline
    (trace (snd (execute Preview scenario.noLogin (sample.launched "")))).
Proof.
  split; [vm_compute; reflexivity|]. split.
  - apply (failed_login_stops_everything Launch scenario.noLogin sample.fresh).
    reflexivity.
  - apply (failed_login_stops_everything Preview scenario.noLogin (sample.launched "")).
    reflexivity.
Defined.

Ltac no_record_write :=
  cbv beta iota;
  lazymatch goal with
  | |- True => exact I
  | |- _ = _ -> _ => let H := fresh in intros H; discriminate H
  end.

(** X19. A run that does not complete has not written the record: writing
    it is the last step of both commands. *)
Theorem record_untouched_unless_completed c e s :
  fst (execute c e s) <> Completed ->
  fs (snd (execute c e s)) !! "sidekick.yml" = fs s !! "sidekick.yml" /\
  recordWrites (fun _ _ => False) (trace (snd (execute c e s))).
Proof.
  unfold recordWrites. destruct c; cbn [execute].
  - launch_exec e; st_simpl; intros Hout; try (exfalso; exact (Hout eq_refl)).
    all: cleans; split; [fs_lookup; reflexivity | each_event no_record_write].
  - preview_exec; st_simpl; intros Hout; try (exfalso; exact (Hout eq_refl)).
    all: cleans; split; [fs_lookup; reflexivity | each_event no_record_write].
Qed.

Lemma record_untouched_unless_completed_witness :
  fst (execute Preview sample.brokenBuild (sample.launched "")) = Exited 1 /\
  fs (snd (execute Preview sample.brokenBuild (sample.launched ""))) !! "sidekick.yml"
    = fs (sample.launched "") !! "sidekick.yml".
Proof.
  split; [vm_compute; reflexivity|].
  apply (record_untouched_unless_completed Preview sample.brokenBuild (sample.launched "")).
  vm_compute. discriminate.
Defined.

Lemma completed_run_deletes_compose_witness :
  is_Some (fs scenario.withCompose !! "docker-compose.yaml") /\
  fs (snd (execute Launch sample.shop scenario.withCompose)) !! "docker-compose.yaml"
    = None.
Proof.
  split; [vm_compute; eauto|].
  destruct (completed_run_deletes_compose Launch sample.shop scenario.withCompose)
    as [H _]; [vm_compute; reflexivity | exact H].
Defined.

(** X20. The record a completed launch writes has the image
    [<dockerUsername>/<appName>], the same image as the service of the
    compose document, the resolved domain as url, the current time as both
    timestamps and no preview entry. *)
Theorem launch_record_contents e s :
  fst (launch.run e s) = Completed ->
  writeOk e "sidekick.yml" = true ->
  recordMarshalOk e = true ->
  exists rec m doc svc,
    fs (snd (launch.run e s)) !! "sidekick.yml"
      = Some {| data := RecordYaml rec; mode := m |} /\
    AppImage rec = dockerUsername e +:+ "/" +:+ launch.appName e /\
    Url rec = launch.appDomain e /\
    CreatedAt rec = now e /\
    LastDeployedAt rec = now e /\
    PreviewEnvs rec = ∅ /\
    In (EvWriteFile "docker-compose.yaml" (ComposeYaml doc) 420 true)
       (trace (snd (launch.run e s))) /\
    Services doc !! launch.appName e = Some svc /\
    Image svc = AppImage rec.
Proof.
  intros Hdone Hw Hm. revert Hdone.
  launch_exec e; try not_completed; try absurd_branch.
  st_simpl. intros _. cleans. fs_lookup.
  unfold launch.recordBytes. rewrite Hm.
  do 4 eexists. split; [reflexivity|].
  repeat (split; [reflexivity|]).
  split; [in_trace|]. split; [apply lookup_singleton_eq | reflexivity].
Qed.

Lemma launch_record_contents_witness :
  exists rec m,
    fs (snd (launch.run sample.shop sample.fresh)) !! "sidekick.yml"
      = Some {| data := RecordYaml rec; mode := m |} /\
    AppImage rec = "bob/shop".
Proof.
  destruct (launch_record_contents sample.shop sample.fresh)
    as (rec & m & _ & _ & H1 & H2 & _); [vm_compute; reflexivity ..|].
  exists rec, m. split; [exact H1 | exact H2].
Defined.
